(** * roll-dice: the OpenTelemetry bootstrap of [otel.go]

    A shallow embedding of [setupOTelSDK] and its helpers.  The Go code is
    sequential, mutates three process-wide globals, writes to the log, keeps
    a slice of cleanup functions in a variable captured by two closures, and
    may panic.  It is embedded as a state-and-panic monad over a [World]
    record; the captured variable lives in a heap cell so that the closure
    returned to the caller and the one used inside the function share it.

    The packages the code imports are each represented by a Rocq module of the same
    name that holds the part of their documented contract the code relies on. *)

From Stdlib Require Import ZArith.
From stdpp Require Import gmap strings list pretty.

Local Open Scope string_scope.
Local Open Scope list_scope.
Set Warnings "-register-all".

(** ** Package [errors] *)

Module errors.

(** A non-nil Go [error] value: either an opaque error produced by some
    library, identified by its message, or the [*joinError] built by
    [errors.Join]. *)
Inductive err : Type :=
| errorString (s : string)
| joinError (errs : list err).

(** The interface type [error]; [None] is [nil]. *)
Definition error : Type := option err.

(** [errors.Join]: nil arguments are discarded; the result is nil when
    nothing is left, and otherwise one [joinError] holding the remaining
    arguments in order (arguments are not flattened). *)
Definition Join (errs : list error) : error :=
  match omap id errs with
  | [] => None
  | es => Some (joinError es)
  end.

Definition newline : Ascii.ascii := Ascii.ascii_of_nat 10.

(** The [Error] method: a [joinError] prints its members separated by
    newlines. *)
Fixpoint Error (e : err) : string :=
  match e with
  | errorString s => s
  | joinError errs =>
      (fix go (l : list err) : string :=
         match l with
         | [] => ""
         | [x] => Error x
         | x :: rest => Error x +:+ String newline (go rest)
         end) errs
  end.

(** The opaque errors reachable from [e] through [Unwrap() []error]:
    what remains inspectable after any amount of joining. *)
Fixpoint leaves (e : err) : list err :=
  match e with
  | errorString s => [errorString s]
  | joinError errs =>
      (fix go (l : list err) : list err :=
         match l with
         | [] => []
         | x :: rest => leaves x ++ go rest
         end) errs
  end.

Definition leaves_of (e : error) : list err :=
  match e with
  | None => []
  | Some x => leaves x
  end.

End errors.

Abbreviation error := errors.error.
Abbreviation nil_error := (@None errors.err).

(** ** Packages [time] and [context] *)

Module time.
(** [time.Duration] counts nanoseconds. *)
Definition Duration : Type := Z.
Definition Second : Duration := 1000000000%Z.
End time.

(** A [context.Context] is opaque to this program: it is only passed on.
    Contexts are told apart by a number. *)
Definition context_Context : Type := nat.

(** ** Packages [attribute], [semconv] and [resource] *)

Module attribute.
(** Only string-valued attributes occur in this program. *)
Record KeyValue : Type := mkKeyValue { Key : string; Value : string }.

(** [KeyValue.Valid]: the key is defined (not empty). *)
Definition Valid (kv : KeyValue) : bool :=
  match Key kv with
  | EmptyString => false
  | _ => true
  end.
End attribute.

Module semconv.
(** Semantic conventions v1.21.0, as imported on line 17. *)
Definition SchemaURL : string := "https://opentelemetry.io/schemas/1.21.0".
Definition ServiceNameKey : string := "service.name".
Definition ServiceVersionKey : string := "service.version".
Definition ServiceName (val : string) : attribute.KeyValue :=
  attribute.mkKeyValue ServiceNameKey val.
Definition ServiceVersion (val : string) : attribute.KeyValue :=
  attribute.mkKeyValue ServiceVersionKey val.
End semconv.

Module resource.

(** A resource: a schema URL and a set of attributes with distinct keys. *)
Record Resource : Type := mkResource {
  schemaURL : string;
  attrs : gmap string string
}.

Definition Empty : Resource := mkResource "" ∅.

Definition errMergeConflictSchemaURL : errors.err :=
  errors.errorString "cannot merge resource due to conflicting Schema URL".

(** [resource.NewWithAttributes]: invalid attributes are dropped and a
    repeated key keeps its last value. *)
Definition NewWithAttributes (url : string) (kvs : list attribute.KeyValue)
  : Resource :=
  mkResource url
    (foldl (fun m kv => <[attribute.Key kv := attribute.Value kv]> m) ∅
           (filter (fun kv => attribute.Valid kv = true) kvs)).

(** [resource.Merge a b]: attributes of [b] overwrite those of [a]; the
    schema URLs must agree unless one of them is empty. *)
Definition Merge (a b : Resource) : Resource * error :=
  let merged url := (mkResource url (attrs b ∪ attrs a), nil_error) in
  if decide (schemaURL a = "") then merged (schemaURL b)
  else if decide (schemaURL b = "") then merged (schemaURL a)
  else if decide (schemaURL a = schemaURL b) then merged (schemaURL a)
  else (Empty, Some errMergeConflictSchemaURL).

End resource.

(** ** Package [propagation] *)

Module propagation.
Inductive TextMapPropagator : Type :=
| TraceContext
| Baggage
| compositeTextMapPropagator (ps : list TextMapPropagator).

Definition NewCompositeTextMapPropagator (ps : list TextMapPropagator)
  : TextMapPropagator := compositeTextMapPropagator ps.
End propagation.

(** ** Packages [otlptrace], [trace] and [metric] *)

Module otlptrace.
(** An OTLP span exporter; the number tells two exporters apart. *)
Inductive Exporter : Type := mkExporter (id : nat).
End otlptrace.

Module trace.

Inductive BatchSpanProcessorOption : Type :=
| WithBatchTimeout (delay : time.Duration).

Inductive TracerProviderOption : Type :=
| WithBatcher (e : otlptrace.Exporter) (opts : list BatchSpanProcessorOption)
| WithResource (r : resource.Resource).

(** A tracer provider is determined by the options it was built from. *)
Record TracerProvider : Type := NewTracerProvider {
  options : list TracerProviderOption
}.

(** The library default the comment on line 114 refers to. *)
Definition DefaultScheduleDelay : time.Duration := (5 * time.Second)%Z.

(** The batch timeout a list of processor options results in: each
    option overwrites the value left by the options before it. *)
Definition BatchTimeout (opts : list BatchSpanProcessorOption) : time.Duration :=
  foldl (fun _ o => match o with WithBatchTimeout d => d end)
        DefaultScheduleDelay opts.

(** The batching processors of a provider: exporter and batch timeout. *)
Definition batchers (tp : TracerProvider)
  : list (otlptrace.Exporter * time.Duration) :=
  omap (fun o => match o with
                 | WithBatcher e opts => Some (e, BatchTimeout opts)
                 | WithResource _ => None
                 end) (options tp).

(** The resources a provider was given with [WithResource]. *)
Definition resources (tp : TracerProvider) : list resource.Resource :=
  omap (fun o => match o with
                 | WithResource r => Some r
                 | WithBatcher _ _ => None
                 end) (options tp).

End trace.

Module metric.

(** The reader of the commented-out lines 130-133. *)
Inductive Reader : Type :=
| NewPeriodicReader (exporter : string) (interval : time.Duration).

Inductive Option : Type :=
| WithResource (r : resource.Resource)
| WithReader (r : Reader).

Record MeterProvider : Type := NewMeterProvider {
  options : list Option
}.

Definition readers (mp : MeterProvider) : list Reader :=
  omap (fun o => match o with
                 | WithReader r => Some r
                 | WithResource _ => None
                 end) (options mp).

Definition resources (mp : MeterProvider) : list resource.Resource :=
  omap (fun o => match o with
                 | WithResource r => Some r
                 | WithReader _ => None
                 end) (options mp).

End metric.

(** ** The world the program runs in *)

(** The values of type [func(context.Context) error] this program stores:
    the [Shutdown] method bound to a provider. *)
Inductive ShutdownFunc : Type :=
| TracerProvider_Shutdown (tp : trace.TracerProvider)
| MeterProvider_Shutdown (mp : metric.MeterProvider).

(** What the program cannot decide: the resource detected by
    [resource.Default()], whether [otlptracehttp.New] succeeds, and what
    a provider's [Shutdown] answers given the calls made before it. *)
Record Environment : Type := mkEnvironment {
  env_Default : resource.Resource;
  env_New : context_Context -> errors.err + otlptrace.Exporter;
  env_Shutdown : ShutdownFunc -> context_Context ->
                 list (ShutdownFunc * context_Context) -> error
}.

Record World : Type := mkWorld {
  environment : Environment;
  (** the three globals of package [otel]; [None]: never set *)
  global_TextMapPropagator : option propagation.TextMapPropagator;
  global_TracerProvider : option trace.TracerProvider;
  global_MeterProvider : option metric.MeterProvider;
  (** lines written through package [log], oldest first *)
  logged : list string;
  (** the captured [shutdownFuncs] variables, one cell per activation *)
  cells : gmap nat (list ShutdownFunc);
  (** every call of a registered function, oldest first *)
  invoked : list (ShutdownFunc * context_Context)
}.

Definition set_TextMapPropagator (p : propagation.TextMapPropagator) (w : World) : World :=
  mkWorld (environment w) (Some p) (global_TracerProvider w)
          (global_MeterProvider w) (logged w) (cells w) (invoked w).

Definition set_TracerProvider (tp : trace.TracerProvider) (w : World) : World :=
  mkWorld (environment w) (global_TextMapPropagator w) (Some tp)
          (global_MeterProvider w) (logged w) (cells w) (invoked w).

Definition set_MeterProvider (mp : metric.MeterProvider) (w : World) : World :=
  mkWorld (environment w) (global_TextMapPropagator w) (global_TracerProvider w)
          (Some mp) (logged w) (cells w) (invoked w).

Definition set_logged (l : list string) (w : World) : World :=
  mkWorld (environment w) (global_TextMapPropagator w) (global_TracerProvider w)
          (global_MeterProvider w) l (cells w) (invoked w).

Definition set_cells (c : gmap nat (list ShutdownFunc)) (w : World) : World :=
  mkWorld (environment w) (global_TextMapPropagator w) (global_TracerProvider w)
          (global_MeterProvider w) (logged w) c (invoked w).

Definition set_invoked (i : list (ShutdownFunc * context_Context)) (w : World) : World :=
  mkWorld (environment w) (global_TextMapPropagator w) (global_TracerProvider w)
          (global_MeterProvider w) (logged w) (cells w) i.

(** ** The monad: state passing with panics *)

Inductive Outcome (A : Type) : Type :=
| Returned (a : A) (w : World)
| Panicked (v : errors.err) (w : World).
Arguments Returned {A} a w.
Arguments Panicked {A} v w.

Definition M (A : Type) : Type := World -> Outcome A.

#[global] Instance M_ret : MRet M := fun A a w => Returned a w.

#[global] Instance M_bind : MBind M := fun A B k m w =>
  match m w with
  | Returned a w' => k a w'
  | Panicked v w' => Panicked v w'
  end.

(** Go's [panic]: the rest of the function is skipped. *)
Definition panic {A} (v : errors.err) : M A := fun w => Panicked v w.

(** ** The effectful library calls *)

Module otel.
Definition SetTextMapPropagator (p : propagation.TextMapPropagator) : M unit :=
  fun w => Returned tt (set_TextMapPropagator p w).
Definition SetTracerProvider (tp : trace.TracerProvider) : M unit :=
  fun w => Returned tt (set_TracerProvider tp w).
Definition SetMeterProvider (mp : metric.MeterProvider) : M unit :=
  fun w => Returned tt (set_MeterProvider mp w).
End otel.

Module log.
Definition Print (s : string) : M unit :=
  fun w => Returned tt (set_logged (logged w ++ [s]) w).
(** [log.Printf] for a format that ends in its only verb, [%s], applied to
    an error; [prefix] is the format up to that verb. *)
Definition Printf (prefix : string) (e : errors.err) : M unit :=
  Print (prefix +:+ errors.Error e).
End log.

Module otlptracehttp.
Definition New (ctx : context_Context) : M (errors.err + otlptrace.Exporter) :=
  fun w => Returned (env_New (environment w) ctx) w.
End otlptracehttp.

(** [resource.Default()] *)
Definition resource_Default : M resource.Resource :=
  fun w => Returned (env_Default (environment w)) w.

(** Calling a stored function value: the call is recorded and answers as
    the environment says. *)
Definition call (fn : ShutdownFunc) (ctx : context_Context) : M error :=
  fun w => Returned (env_Shutdown (environment w) fn ctx (invoked w))
                    (set_invoked (invoked w ++ [(fn, ctx)]) w).

(** The captured variable [shutdownFuncs]: declaration (a nil slice in a
    fresh cell), read and assignment. *)
Definition var_shutdownFuncs : M nat :=
  fun w => let l := fresh (dom (cells w)) in
           Returned l (set_cells (<[l := []]> (cells w)) w).

Definition load (l : nat) : M (list ShutdownFunc) :=
  fun w => Returned (default [] (cells w !! l)) w.

Definition store (l : nat) (fns : list ShutdownFunc) : M unit :=
  fun w => Returned tt (set_cells (<[l := fns]> (cells w)) w).

(** ** The program: [otel.go] *)

(** Lines 76-82. *)
Definition newResource (serviceName serviceVersion : string)
  : M (resource.Resource * error) :=
  default_res ← resource_Default;
  mret (resource.Merge default_res
          (resource.NewWithAttributes semconv.SchemaURL
             [semconv.ServiceName serviceName;
              semconv.ServiceVersion serviceVersion])).

(** Lines 84-89. *)
Definition newPropagator : propagation.TextMapPropagator :=
  propagation.NewCompositeTextMapPropagator
    [propagation.TraceContext; propagation.Baggage].

(** Lines 91-102. *)
Definition newExporter (ctx : context_Context) : M (otlptrace.Exporter * error) :=
  r ← otlptracehttp.New ctx;
  match r with
  | inl err =>
      log.Printf "Error sending traces " err;;
      panic err
  | inr traceExporter => mret (traceExporter, nil_error)
  end.

(** Lines 104-120. *)
Definition newTraceProvider (res : resource.Resource) (exporter : otlptrace.Exporter)
  : M (trace.TracerProvider * error) :=
  let traceProvider :=
    trace.NewTracerProvider
      [trace.WithBatcher exporter [trace.WithBatchTimeout time.Second];
       trace.WithResource res] in
  log.Print "Sent to otel collector";;
  mret (traceProvider, nil_error).

(** Lines 122-136. *)
Definition newMeterProvider (res : resource.Resource)
  : M (metric.MeterProvider * error) :=
  let meterProvider := metric.NewMeterProvider [metric.WithResource res] in
  mret (meterProvider, nil_error).

(** The loop of lines 30-32 over the slice the range expression evaluated
    to, with the running value of the local [err]. *)
Fixpoint range_shutdownFuncs (fns : list ShutdownFunc) (ctx : context_Context)
    (err : error) : M error :=
  match fns with
  | [] => mret err
  | fn :: rest =>
      e ← call fn ctx;
      range_shutdownFuncs rest ctx (errors.Join [err; e])
  end.

(** The closure of lines 28-35; [shutdownFuncs] is the cell of the variable
    it captures. *)
Definition shutdown (shutdownFuncs : nat) (ctx : context_Context) : M error :=
  fns ← load shutdownFuncs;
  err ← range_shutdownFuncs fns ctx nil_error;
  store shutdownFuncs [];;
  mret err.

(** The closure of lines 38-40; the value it assigns to the named result
    [err] is handed back. *)
Definition handleErr (shutdownFuncs : nat) (ctx : context_Context) (inErr : error)
  : M error :=
  e ← shutdown shutdownFuncs ctx;
  mret (errors.Join [inErr; e]).

(** [shutdownFuncs = append(shutdownFuncs, fn)] *)
Definition append_shutdownFuncs (shutdownFuncs : nat) (fn : ShutdownFunc) : M unit :=
  fns ← load shutdownFuncs;
  store shutdownFuncs (fns ++ [fn]).

Section ProviderConstructors.

(** The two provider constructors of [otel.go] never return an error, so
    the branches of lines 57-60 and 66-69 cannot be entered through them.
    The body of [setupOTelSDK] is therefore stated over any pair of
    constructors and instantiated below. *)
Variable mkTraceProvider :
  resource.Resource -> otlptrace.Exporter -> M (trace.TracerProvider * error).
Variable mkMeterProvider :
  resource.Resource -> M (metric.MeterProvider * error).

(** Lines 22-74.  The result pairs the named results [shutdown] and [err]. *)
Definition setupOTelSDK_body (ctx : context_Context)
    (serviceName serviceVersion : string)
  : M ((context_Context -> M error) * error) :=
  shutdownFuncs ← var_shutdownFuncs;
  let shutdown := shutdown shutdownFuncs in
  let handleErr := handleErr shutdownFuncs ctx in
  (* Set up resource. *)
  '(res, err) ← newResource serviceName serviceVersion;
  match err with
  | Some _ => err ← handleErr err; mret (shutdown, err)
  | None =>
  (* Set up propagator. *)
  let prop := newPropagator in
  otel.SetTextMapPropagator prop;;
  '(exporter, _) ← newExporter ctx;
  (* Set up trace provider. *)
  '(tracerProvider, err) ← mkTraceProvider res exporter;
  match err with
  | Some _ => err ← handleErr err; mret (shutdown, err)
  | None =>
  append_shutdownFuncs shutdownFuncs (TracerProvider_Shutdown tracerProvider);;
  otel.SetTracerProvider tracerProvider;;
  (* Set up meter provider. *)
  '(meterProvider, err) ← mkMeterProvider res;
  match err with
  | Some _ => err ← handleErr err; mret (shutdown, err)
  | None =>
  append_shutdownFuncs shutdownFuncs (MeterProvider_Shutdown meterProvider);;
  otel.SetMeterProvider meterProvider;;
  mret (shutdown, err)
  end end end.

End ProviderConstructors.

Definition setupOTelSDK : context_Context -> string -> string ->
    M ((context_Context -> M error) * error) :=
  setupOTelSDK_body newTraceProvider newMeterProvider.

(** ** The dice-roll handler *)

Record Request : Type := mkRequest { Method : string; URL_Path : string }.

Record Response : Type := mkResponse {
  StatusCode : nat;
  ContentType : string;
  Body : string
}.

(** Modelled from the spec: [rolldice.go], which holds the handler of the
    dice route, is not among the sources.  Section 4.3: the handler
    generates a pseudo-random integer over 1..6 and answers 200 with the
    decimal string of that integer as a plain-text body; a method other than
    GET is rejected (method not allowed is the rejection the spec names).
    [draw] is the number the pseudo-random source hands out for this
    request, brought into range by a remainder. *)
Definition HandleRollDice (draw : N) (r : Request) : Response :=
  if decide (Method r = "GET") then
    let roll := (1 + draw `mod` 6)%N in
    mkResponse 200 "text/plain" (pretty roll)
  else mkResponse 405 "text/plain" "".

(** The pattern [^[1-6]$]: exactly one character, a digit from 1 to 6. *)
Definition matches_1_to_6 (s : string) : bool :=
  match s with
  | String c EmptyString =>
      Nat.leb 49 (Ascii.nat_of_ascii c) && Nat.leb (Ascii.nat_of_ascii c) 54
  | _ => false
  end.

(** ** Reading a run *)

(** What the functions of [fns], called one after the other with [ctx],
    answer when [hist] lists the calls made before. *)
Fixpoint answers (env : Environment) (fns : list ShutdownFunc)
    (ctx : context_Context) (hist : list (ShutdownFunc * context_Context))
  : list error :=
  match fns with
  | [] => []
  | fn :: rest =>
      env_Shutdown env fn ctx hist :: answers env rest ctx (hist ++ [(fn, ctx)])
  end.

(** The value the local [err] of [shutdown] ends with. *)
Definition join_all (init : error) (es : list error) : error :=
  foldl (fun acc e => errors.Join [acc; e]) init es.

(** Invoking a shutdown procedure once per context of [ctxs], in order. *)
Fixpoint invoke_each (sd : context_Context -> M error) (ctxs : list context_Context)
  : M (list error) :=
  match ctxs with
  | [] => mret []
  | ctx :: rest =>
      e ← sd ctx;
      es ← invoke_each sd rest;
      mret (e :: es)
  end.

(** A computation that, wherever it runs, returns [a] and does nothing but
    write the lines [l] to the log. *)
Definition only_logs {A} (m : M A) (a : A) (l : list string) : Prop :=
  forall w, m w = Returned a (set_logged (logged w ++ l) w).

(** The resource [newResource] asks [resource.Merge] to add to the default. *)
Definition service_identity (serviceName serviceVersion : string) : resource.Resource :=
  resource.NewWithAttributes semconv.SchemaURL
    [semconv.ServiceName serviceName; semconv.ServiceVersion serviceVersion].

(** ** Concrete worlds *)

Module Sample.

Definition sdk_resource (url : string) : resource.Resource :=
  resource.mkResource url
    {[ "service.name" := "unknown_service:myapp";
       "telemetry.sdk.language" := "go";
       "telemetry.sdk.name" := "opentelemetry" ]}.

Definition tp_failed : errors.err := errors.errorString "tracer provider: flush failed".
Definition mp_failed : errors.err := errors.errorString "meter provider: shutdown failed".

(** Both providers fail to shut down, whenever asked. *)
Definition failing_Shutdown (fn : ShutdownFunc) (ctx : context_Context)
    (hist : list (ShutdownFunc * context_Context)) : error :=
  match fn with
  | TracerProvider_Shutdown _ => Some tp_failed
  | MeterProvider_Shutdown _ => Some mp_failed
  end.

(** A collector is reachable and the SDK uses schema 1.21.0. *)
Definition env_ok : Environment :=
  mkEnvironment (sdk_resource semconv.SchemaURL)
                (fun _ => inr (otlptrace.mkExporter 0))
                failing_Shutdown.

(** The SDK detects its resource under a newer schema. *)
Definition env_schema_conflict : Environment :=
  mkEnvironment (sdk_resource "https://opentelemetry.io/schemas/1.26.0")
                (fun _ => inr (otlptrace.mkExporter 0))
                failing_Shutdown.

Definition bad_endpoint : errors.err := errors.errorString "invalid endpoint URL".

(** The exporter cannot be built. *)
Definition env_no_exporter : Environment :=
  mkEnvironment (sdk_resource semconv.SchemaURL)
                (fun _ => inl bad_endpoint)
                failing_Shutdown.

(** A process that has not touched telemetry yet. *)
Definition start (env : Environment) : World :=
  mkWorld env None None None [] ∅ [].

(** The world after a bootstrap from [start env_ok]. *)
Definition booted : World :=
  Eval vm_compute in
    match setupOTelSDK 0 "rolldice" "1.0" (start env_ok) with
    | Returned _ w | Panicked _ w => w
    end.

Definition no_reader : errors.err := errors.errorString "no reader".

(** A constructor that does report an error, unlike the one of [otel.go]. *)
Definition failing_MeterProvider (res : resource.Resource)
  : M (metric.MeterProvider * error) :=
  mret (metric.NewMeterProvider [], Some no_reader).

End Sample.

(** ** Further concrete worlds *)

Module Scenario.

Definition tp0 : trace.TracerProvider := trace.NewTracerProvider [].
Definition mp0 : metric.MeterProvider := metric.NewMeterProvider [].

(** A world whose cell 0 holds three registrations, one of them twice. *)
Definition three_registered : World :=
  mkWorld Sample.env_ok None None None []
    {[ 0 := [MeterProvider_Shutdown mp0; TracerProvider_Shutdown tp0;
             MeterProvider_Shutdown mp0] ]} [].

(** The world after a second bootstrap on top of [Sample.booted]. *)
Definition booted_twice : World :=
  Eval vm_compute in
    match setupOTelSDK 1 "rolldice" "2.0" Sample.booted with
    | Returned _ w | Panicked _ w => w
    end.

(** The world a bootstrap leaves when the schemas conflict. *)
Definition conflicted : World :=
  Eval vm_compute in
    match setupOTelSDK 0 "rolldice" "1.0" (Sample.start Sample.env_schema_conflict) with
    | Returned _ w | Panicked _ w => w
    end.

End Scenario.

(** ** Tactics for running the program *)

Ltac unfold_program :=
  unfold setupOTelSDK, setupOTelSDK_body, handleErr, newResource, newExporter,
    append_shutdownFuncs, var_shutdownFuncs, resource_Default,
    otlptracehttp.New, otel.SetTextMapPropagator, otel.SetTracerProvider,
    otel.SetMeterProvider, log.Printf, log.Print, load, store, panic,
    mbind, M_bind, mret, M_ret.

Ltac simpl_world :=
  unfold set_TextMapPropagator, set_TracerProvider, set_MeterProvider,
    set_logged, set_cells, set_invoked;
  cbn -[fresh resource.Merge];
  rewrite ?lookup_insert_eq, ?insert_insert_eq;
  cbn -[fresh resource.Merge];
  rewrite ?lookup_insert_eq, ?insert_insert_eq, ?app_nil_r, <- ?app_assoc.

(** ** Lemmas on the library model *)

Lemma World_eta (w : World) :
  mkWorld (environment w) (global_TextMapPropagator w) (global_TracerProvider w)
          (global_MeterProvider w) (logged w) (cells w) (invoked w) = w.
Proof. by destruct w. Qed.

Lemma leaves_of_Join2 (a b : error) :
  errors.leaves_of (errors.Join [a; b]) = errors.leaves_of a ++ errors.leaves_of b.
Proof.
  destruct a as [x|], b as [y|]; cbn; rewrite ?app_nil_r; reflexivity.
Qed.

Lemma leaves_of_join_all (es : list error) : forall init,
  errors.leaves_of (join_all init es)
  = errors.leaves_of init ++ concat (map errors.leaves_of es).
Proof.
  induction es as [|e es IH]; intros init; cbn [join_all foldl map concat].
  - by rewrite app_nil_r.
  - fold (join_all (errors.Join [init; e]) es).
    by rewrite IH, leaves_of_Join2, app_assoc.
Qed.

Lemma Join2_nil_iff (a b : error) :
  errors.Join [a; b] = nil_error <-> a = nil_error /\ b = nil_error.
Proof. destruct a, b; cbn; intuition congruence. Qed.

(** ** Lemmas on the closures *)

Lemma range_shutdownFuncs_run (fns : list ShutdownFunc) (ctx : context_Context) :
  forall (err : error) (w : World),
    range_shutdownFuncs fns ctx err w
    = Returned (join_all err (answers (environment w) fns ctx (invoked w)))
               (set_invoked (invoked w ++ map (fun fn => (fn, ctx)) fns) w).
Proof.
  induction fns as [|fn rest IH]; intros err w.
  - cbn. unfold set_invoked. by rewrite app_nil_r, World_eta.
  - cbn [range_shutdownFuncs answers map].
    unfold mbind, M_bind, call. rewrite IH. cbn.
    unfold set_invoked; cbn. by rewrite <- app_assoc.
Qed.

Lemma shutdown_run (l : nat) (ctx : context_Context) (w : World) :
  let fns := default [] (cells w !! l) in
  shutdown l ctx w
  = Returned (join_all nil_error (answers (environment w) fns ctx (invoked w)))
             (set_cells (<[l := []]> (cells w))
                (set_invoked (invoked w ++ map (fun fn => (fn, ctx)) fns) w)).
Proof.
  cbn. unfold shutdown, mbind, M_bind, load.
  rewrite range_shutdownFuncs_run. reflexivity.
Qed.

(** Once the cell is empty, [shutdown] changes nothing and returns nil. *)
Lemma shutdown_emptied (l : nat) (ctx : context_Context) (w : World) :
  cells w !! l = Some [] -> shutdown l ctx w = Returned nil_error w.
Proof.
  intros Hl. rewrite shutdown_run, Hl. cbn.
  unfold set_cells, set_invoked; cbn.
  by rewrite app_nil_r, (insert_id _ _ _ Hl), World_eta.
Qed.

Lemma invoke_each_emptied (l : nat) (ctxs : list context_Context) (w : World) :
  cells w !! l = Some [] ->
  invoke_each (shutdown l) ctxs w = Returned (map (fun _ => nil_error) ctxs) w.
Proof.
  intros Hl. induction ctxs as [|c rest IH]; [reflexivity|].
  cbn [invoke_each map]. unfold mbind, M_bind in *.
  by rewrite (shutdown_emptied _ _ _ Hl), IH.
Qed.

(** ** Runs of [setupOTelSDK] *)

Lemma newTraceProvider_only_logs res exporter :
  only_logs (newTraceProvider res exporter)
    (trace.NewTracerProvider
       [trace.WithBatcher exporter [trace.WithBatchTimeout time.Second];
        trace.WithResource res], nil_error)
    ["Sent to otel collector"].
Proof. intros w. reflexivity. Qed.

Lemma newMeterProvider_only_logs res :
  only_logs (newMeterProvider res)
    (metric.NewMeterProvider [metric.WithResource res], nil_error) [].
Proof.
  intros w. unfold newMeterProvider, set_logged, mret, M_ret.
  by rewrite app_nil_r, World_eta.
Qed.

Section Runs.

Variable mkTraceProvider :
  resource.Resource -> otlptrace.Exporter -> M (trace.TracerProvider * error).
Variable mkMeterProvider :
  resource.Resource -> M (metric.MeterProvider * error).
Variables (ctx : context_Context) (name ver : string) (w : World).

Local Abbreviation l := (fresh (dom (cells w))).
Local Abbreviation env := (environment w).

Lemma run_resource_fails res inErr :
  resource.Merge (env_Default env) (service_identity name ver) = (res, Some inErr) ->
  setupOTelSDK_body mkTraceProvider mkMeterProvider ctx name ver w
  = Returned (shutdown l, errors.Join [Some inErr; nil_error])
      (set_cells (<[l := []]> (cells w)) w).
Proof.
  intros Hres. unfold_program.
  cbn -[fresh resource.Merge]. fold (service_identity name ver).
  fold env. rewrite Hres. cbn -[fresh].
  rewrite shutdown_emptied by (cbn; apply lookup_insert_eq).
  reflexivity.
Qed.

Lemma run_exporter_fails res inErr :
  resource.Merge (env_Default env) (service_identity name ver) = (res, nil_error) ->
  env_New env ctx = inl inErr ->
  setupOTelSDK_body mkTraceProvider mkMeterProvider ctx name ver w
  = Panicked inErr
      (mkWorld env (Some newPropagator) (global_TracerProvider w)
         (global_MeterProvider w)
         (logged w ++ ["Error sending traces " +:+ errors.Error inErr])
         (<[l := []]> (cells w)) (invoked w)).
Proof.
  intros Hres Hexp. unfold_program.
  cbn -[fresh resource.Merge]. fold (service_identity name ver).
  fold env. rewrite Hres. cbn -[fresh]. fold env. rewrite Hexp.
  reflexivity.
Qed.

Lemma run_trace_provider_fails res exporter tp inErr lines :
  resource.Merge (env_Default env) (service_identity name ver) = (res, nil_error) ->
  env_New env ctx = inr exporter ->
  only_logs (mkTraceProvider res exporter) (tp, Some inErr) lines ->
  setupOTelSDK_body mkTraceProvider mkMeterProvider ctx name ver w
  = Returned (shutdown l, errors.Join [Some inErr; nil_error])
      (mkWorld env (Some newPropagator) (global_TracerProvider w)
         (global_MeterProvider w) (logged w ++ lines)
         (<[l := []]> (cells w)) (invoked w)).
Proof.
  intros Hres Hexp Htp. unfold_program.
  cbn -[fresh resource.Merge]. fold (service_identity name ver).
  fold env. rewrite Hres. cbn -[fresh]. fold env. rewrite Hexp.
  cbn -[fresh]. rewrite Htp. cbn -[fresh].
  rewrite shutdown_emptied by (cbn; apply lookup_insert_eq).
  reflexivity.
Qed.

Lemma run_meter_provider_fails res exporter tp mp inErr lines lines' :
  resource.Merge (env_Default env) (service_identity name ver) = (res, nil_error) ->
  env_New env ctx = inr exporter ->
  only_logs (mkTraceProvider res exporter) (tp, nil_error) lines ->
  only_logs (mkMeterProvider res) (mp, Some inErr) lines' ->
  setupOTelSDK_body mkTraceProvider mkMeterProvider ctx name ver w
  = Returned (shutdown l,
              errors.Join [Some inErr;
                join_all nil_error
                  (answers env [TracerProvider_Shutdown tp] ctx (invoked w))])
      (mkWorld env (Some newPropagator) (Some tp) (global_MeterProvider w)
         (logged w ++ lines ++ lines') (<[l := []]> (cells w))
         (invoked w ++ [(TracerProvider_Shutdown tp, ctx)])).
Proof.
  intros Hres Hexp Htp Hmp. unfold_program.
  cbn -[fresh resource.Merge]. fold (service_identity name ver).
  fold env. rewrite Hres. cbn -[fresh]. fold env. rewrite Hexp.
  cbn -[fresh]. rewrite Htp. cbn -[fresh]. rewrite Hmp. cbn -[fresh].
  rewrite shutdown_run. simpl_world. reflexivity.
Qed.

Lemma run_succeeds res exporter tp mp lines lines' :
  resource.Merge (env_Default env) (service_identity name ver) = (res, nil_error) ->
  env_New env ctx = inr exporter ->
  only_logs (mkTraceProvider res exporter) (tp, nil_error) lines ->
  only_logs (mkMeterProvider res) (mp, nil_error) lines' ->
  setupOTelSDK_body mkTraceProvider mkMeterProvider ctx name ver w
  = Returned (shutdown l, nil_error)
      (mkWorld env (Some newPropagator) (Some tp) (Some mp)
         (logged w ++ lines ++ lines')
         (<[l := [TracerProvider_Shutdown tp; MeterProvider_Shutdown mp]]> (cells w))
         (invoked w)).
Proof.
  intros Hres Hexp Htp Hmp. unfold_program.
  cbn -[fresh resource.Merge]. fold (service_identity name ver).
  fold env. rewrite Hres. cbn -[fresh]. fold env. rewrite Hexp.
  cbn -[fresh]. rewrite Htp. cbn -[fresh]. rewrite Hmp.
  simpl_world. reflexivity.
Qed.

End Runs.

Lemma newResource_run name ver w :
  newResource name ver w
  = Returned (resource.Merge (env_Default (environment w)) (service_identity name ver)) w.
Proof. reflexivity. Qed.

(** With the constructors of [otel.go], a run that returns a nil error went
    through every step, and its result is the one of [run_succeeds]. *)
Lemma setupOTelSDK_nil_inv ctx name ver w sd w1 :
  setupOTelSDK ctx name ver w = Returned (sd, nil_error) w1 ->
  exists res exporter,
    resource.Merge (env_Default (environment w)) (service_identity name ver)
      = (res, nil_error) /\
    env_New (environment w) ctx = inr exporter /\
    let l := fresh (dom (cells w)) in
    let tp := trace.NewTracerProvider
                [trace.WithBatcher exporter [trace.WithBatchTimeout time.Second];
                 trace.WithResource res] in
    let mp := metric.NewMeterProvider [metric.WithResource res] in
    sd = shutdown l /\
    w1 = mkWorld (environment w) (Some newPropagator) (Some tp) (Some mp)
           (logged w ++ ["Sent to otel collector"])
           (<[l := [TracerProvider_Shutdown tp; MeterProvider_Shutdown mp]]> (cells w))
           (invoked w).
Proof.
  intros Hrun. unfold setupOTelSDK in Hrun.
  destruct (resource.Merge (env_Default (environment w)) (service_identity name ver))
    as [res [inErr|]] eqn:Hres.
  - rewrite (run_resource_fails _ _ _ _ _ _ _ _ Hres) in Hrun. discriminate.
  - destruct (env_New (environment w) ctx) as [inErr|exporter] eqn:Hexp.
    + rewrite (run_exporter_fails _ _ _ _ _ _ _ _ Hres Hexp) in Hrun. discriminate.
    + rewrite (run_succeeds _ _ _ _ _ _ _ _ _ _ _ _ Hres Hexp
                 (newTraceProvider_only_logs _ _) (newMeterProvider_only_logs _))
        in Hrun.
      cbn in Hrun. inversion Hrun; subst. by exists res, exporter.
Qed.

(** With the constructors of [otel.go], the resource step is the only one
    whose failure comes back as an error value. *)
Lemma setupOTelSDK_error_inv ctx name ver w sd err w' :
  setupOTelSDK ctx name ver w = Returned (sd, Some err) w' ->
  exists res inErr,
    resource.Merge (env_Default (environment w)) (service_identity name ver)
      = (res, Some inErr).
Proof.
  intros Hrun. unfold setupOTelSDK in Hrun.
  destruct (resource.Merge (env_Default (environment w)) (service_identity name ver))
    as [res [inErr|]] eqn:Hres; [by exists res, inErr|].
  destruct (env_New (environment w) ctx) as [inErr|exporter] eqn:Hexp.
  - rewrite (run_exporter_fails _ _ _ _ _ _ _ _ Hres Hexp) in Hrun. discriminate.
  - rewrite (run_succeeds _ _ _ _ _ _ _ _ _ _ _ _ Hres Hexp
               (newTraceProvider_only_logs _ _) (newMeterProvider_only_logs _))
      in Hrun.
    discriminate.
Qed.

(** The first invocation of the procedure a successful bootstrap returned. *)
Lemma first_shutdown_run ctx name ver w sd w1 ctx' :
  setupOTelSDK ctx name ver w = Returned (sd, nil_error) w1 ->
  exists l tp mp,
    let fns := [TracerProvider_Shutdown tp; MeterProvider_Shutdown mp] in
    sd = shutdown l /\
    cells w1 !! l = Some fns /\
    sd ctx' w1
    = Returned (join_all nil_error (answers (environment w1) fns ctx' (invoked w1)))
        (set_cells (<[l := []]> (cells w1))
           (set_invoked (invoked w1 ++ map (fun fn => (fn, ctx')) fns) w1)).
Proof.
  intros Hrun.
  destruct (setupOTelSDK_nil_inv _ _ _ _ _ _ Hrun)
    as (res & exporter & _ & _ & Hsd & Hw1).
  eexists _, _, _. cbn zeta.
  split; [exact Hsd|].
  assert (Hcell : cells w1 !! fresh (dom (cells w)) = Some
            [TracerProvider_Shutdown (trace.NewTracerProvider
               [trace.WithBatcher exporter [trace.WithBatchTimeout time.Second];
                trace.WithResource res]);
             MeterProvider_Shutdown (metric.NewMeterProvider [metric.WithResource res])]).
  { rewrite Hw1. cbn. apply lookup_insert_eq. }
  split; [exact Hcell|].
  rewrite Hsd, shutdown_run, Hcell. reflexivity.
Qed.

(** ** The shutdown procedure *)

(** C1. After a bootstrap that returned no error, invoking the returned
    shutdown procedure calls every registered cleanup, the tracer provider's
    and then the meter provider's, whatever the first one answers, and
    returns their errors joined: nothing of either answer is lost, and the
    result is nil only when both are. *)
Theorem shutdown_calls_every_cleanup_and_joins ctx name ver w sd w1 ctx' :
  setupOTelSDK ctx name ver w = Returned (sd, nil_error) w1 ->
  exists l tp mp w2,
    let fn1 := TracerProvider_Shutdown tp in
    let fn2 := MeterProvider_Shutdown mp in
    let e1 := env_Shutdown (environment w1) fn1 ctx' (invoked w1) in
    let e2 := env_Shutdown (environment w1) fn2 ctx' (invoked w1 ++ [(fn1, ctx')]) in
    let result := errors.Join [errors.Join [nil_error; e1]; e2] in
    sd = shutdown l /\
    cells w1 !! l = Some [fn1; fn2] /\
    sd ctx' w1 = Returned result w2 /\
    invoked w2 = invoked w1 ++ [(fn1, ctx'); (fn2, ctx')] /\
    errors.leaves_of result = errors.leaves_of e1 ++ errors.leaves_of e2 /\
    (result = nil_error <-> e1 = nil_error /\ e2 = nil_error).
Proof.
  intros Hrun.
  destruct (first_shutdown_run _ _ _ _ _ _ ctx' Hrun)
    as (l & tp & mp & Hsd & Hcell & Hcall).
  eexists l, tp, mp, _. cbn zeta.
  split; [exact Hsd|]. split; [exact Hcell|].
  split; [exact Hcall|]. split; [reflexivity|]. split.
  - by rewrite !leaves_of_Join2.
  - rewrite !Join2_nil_iff. intuition congruence.
Qed.

Lemma shutdown_calls_every_cleanup_and_joins_witness :
  exists w2,
    shutdown 0 7 Sample.booted
      = Returned (Some (errors.joinError
                   [errors.joinError [Sample.tp_failed]; Sample.mp_failed])) w2 /\
    map snd (invoked w2) = [7; 7].
Proof.
  assert (Hrun : setupOTelSDK 0 "rolldice" "1.0" (Sample.start Sample.env_ok)
                 = Returned (shutdown 0, nil_error) Sample.booted)
    by (vm_compute; reflexivity).
  destruct (shutdown_calls_every_cleanup_and_joins _ _ _ _ _ _ 7 Hrun)
    as (l & tp & mp & w2 & _ & _ & Hcall & Hinv & _).
  exists w2. split; [exact Hcall|].
  rewrite Hinv. reflexivity.
Defined.

(** C2. After a bootstrap that returned no error, the first invocation of
    the shutdown procedure calls the two cleanups once each; every later
    invocation calls nothing, changes nothing and returns nil, so the error
    of the first invocation is the only one ever returned. *)
Theorem shutdown_again_is_noop ctx name ver w sd w1 ctx1 later :
  setupOTelSDK ctx name ver w = Returned (sd, nil_error) w1 ->
  exists tp mp e1 w2,
    sd ctx1 w1 = Returned e1 w2 /\
    invoked w2 = invoked w1 ++ [(TracerProvider_Shutdown tp, ctx1);
                                (MeterProvider_Shutdown mp, ctx1)] /\
    (forall ctx2, sd ctx2 w2 = Returned nil_error w2) /\
    invoke_each sd (ctx1 :: later) w1
      = Returned (e1 :: map (fun _ => nil_error) later) w2.
Proof.
  intros Hrun.
  destruct (first_shutdown_run _ _ _ _ _ _ ctx1 Hrun)
    as (l & tp & mp & Hsd & Hcell & Hcall).
  cbn zeta in *.
  set (w2 := set_cells _ _) in Hcall.
  assert (Hemptied : cells w2 !! l = Some []) by (cbn; apply lookup_insert_eq).
  eexists tp, mp, _, w2. split; [exact Hcall|]. split; [reflexivity|]. split.
  - intros ctx2. rewrite Hsd. by apply shutdown_emptied.
  - cbn [invoke_each]. unfold mbind, M_bind. rewrite Hcall.
    rewrite Hsd, (invoke_each_emptied _ _ _ Hemptied). reflexivity.
Qed.

Lemma shutdown_again_is_noop_witness :
  exists e1 w2,
    invoke_each (shutdown 0) [7; 8; 9] Sample.booted
      = Returned [e1; nil_error; nil_error] w2 /\
    length (invoked w2) = 2.
Proof.
  assert (Hrun : setupOTelSDK 0 "rolldice" "1.0" (Sample.start Sample.env_ok)
                 = Returned (shutdown 0, nil_error) Sample.booted)
    by (vm_compute; reflexivity).
  destruct (shutdown_again_is_noop _ _ _ _ _ _ 7 [8; 9] Hrun)
    as (tp & mp & e1 & w2 & _ & Hinv & _ & Hall).
  exists e1, w2. split; [exact Hall|].
  rewrite Hinv. reflexivity.
Defined.

(** ** Failures during the bootstrap *)




(** C4. When the span exporter cannot be built, the bootstrap writes
    [Error sending traces] and the error's text to the log and panics with
    that error: no result reaches the caller and nothing the caller would
    do next is run.  A failure of the resource step, by contrast, comes
    back as a non-nil error value. *)
Theorem exporter_failure_is_fatal ctx name ver w res inErr :
  resource.Merge (env_Default (environment w)) (service_identity name ver)
    = (res, nil_error) ->
  env_New (environment w) ctx = inl inErr ->
  exists w',
    setupOTelSDK ctx name ver w = Panicked inErr w' /\
    logged w' = logged w ++ ["Error sending traces " +:+ errors.Error inErr] /\
    invoked w' = invoked w /\
    (forall r w'', setupOTelSDK ctx name ver w <> Returned r w'') /\
    (forall (B : Type) (next : (context_Context -> M error) * error -> M B),
        (setupOTelSDK ctx name ver ≫= next) w = Panicked inErr w') /\
    (forall w0 res0 inErr0,
        resource.Merge (env_Default (environment w0)) (service_identity name ver)
          = (res0, Some inErr0) ->
        exists sd err w0',
          setupOTelSDK ctx name ver w0 = Returned (sd, Some err) w0').
Proof.
  intros Hres Hexp. eexists.
  pose proof (run_exporter_fails newTraceProvider newMeterProvider
                _ _ _ _ _ _ Hres Hexp) as Hrun.
  fold (setupOTelSDK ctx name ver w) in Hrun.
  split; [exact Hrun|]. split; [reflexivity|]. split; [reflexivity|].
  split; [intros r w''; rewrite Hrun; discriminate|].
  split.
  - intros B next. unfold mbind at 1, M_bind at 1. by rewrite Hrun.
  - intros w0 res0 inErr0 Hres0.
    pose proof (run_resource_fails newTraceProvider newMeterProvider
                  ctx _ _ _ _ _ Hres0) as Hrun0.
    fold (setupOTelSDK ctx name ver w0) in Hrun0.
    eexists _, _, _. exact Hrun0.
Qed.

Lemma exporter_failure_is_fatal_witness :
  exists w',
    setupOTelSDK 0 "rolldice" "1.0" (Sample.start Sample.env_no_exporter)
      = Panicked Sample.bad_endpoint w' /\
    logged w' = ["Error sending traces invalid endpoint URL"].
Proof.
  set (w := Sample.start Sample.env_no_exporter).
  pose (res := (resource.Merge (env_Default (environment w))
                  (service_identity "rolldice" "1.0")).1).
  assert (Hres : resource.Merge (env_Default (environment w))
                   (service_identity "rolldice" "1.0") = (res, nil_error))
    by (vm_compute; reflexivity).
  assert (Hexp : env_New (environment w) 0 = inl Sample.bad_endpoint)
    by reflexivity.
  destruct (exporter_failure_is_fatal 0 "rolldice" "1.0" w res
              Sample.bad_endpoint Hres Hexp) as (w' & Hrun & Hlog & _).
  exists w'. split; [exact Hrun|]. rewrite Hlog. reflexivity.
Defined.

(** C9. When the resource step fails, the bootstrap returns a non-nil
    error that carries the step's error, and the three globals, the log and
    the record of cleanup calls are as they were before the call. *)
Theorem resource_failure_installs_nothing ctx name ver w res inErr :
  newResource name ver w = Returned (res, Some inErr) w ->
  exists sd err w',
    setupOTelSDK ctx name ver w = Returned (sd, Some err) w' /\
    errors.leaves err = errors.leaves inErr /\
    global_TracerProvider w' = global_TracerProvider w /\
    global_MeterProvider w' = global_MeterProvider w /\
    global_TextMapPropagator w' = global_TextMapPropagator w /\
    logged w' = logged w /\
    invoked w' = invoked w.
Proof.
  rewrite newResource_run. intros Hres.
  assert (Hmerge : resource.Merge (env_Default (environment w))
                     (service_identity name ver) = (res, Some inErr))
    by congruence.
  pose proof (run_resource_fails newTraceProvider newMeterProvider
                ctx _ _ _ _ _ Hmerge) as Hrun.
  fold (setupOTelSDK ctx name ver w) in Hrun.
  eexists _, _, _. split; [exact Hrun|].
  cbn. by rewrite app_nil_r.
Qed.

Lemma resource_failure_installs_nothing_witness :
  exists sd w',
    setupOTelSDK 0 "rolldice" "1.0" (Sample.start Sample.env_schema_conflict)
      = Returned (sd, Some (errors.joinError [resource.errMergeConflictSchemaURL])) w' /\
    global_TracerProvider w' = None /\
    global_MeterProvider w' = None.
Proof.
  set (w := Sample.start Sample.env_schema_conflict).
  assert (Hres : newResource "rolldice" "1.0" w
                 = Returned (resource.Empty, Some resource.errMergeConflictSchemaURL) w)
    by (vm_compute; reflexivity).
  destruct (resource_failure_installs_nothing 0 "rolldice" "1.0" w _ _ Hres)
    as (sd & err & w' & Hrun & _ & Htp & Hmp & _).
  exists sd, w'. split; [|split; [exact Htp|exact Hmp]].
  rewrite Hrun. f_equal. f_equal.
  pose proof (run_resource_fails newTraceProvider newMeterProvider 0
                "rolldice" "1.0" w resource.Empty
                resource.errMergeConflictSchemaURL) as Hrun'.
  fold (setupOTelSDK 0 "rolldice" "1.0" w) in Hrun'.
  rewrite Hrun' in Hrun by (vm_compute; reflexivity).
  by inversion Hrun.
Defined.



(** ** What a successful bootstrap builds *)

(** C6. For any service name and version, [newResource] returns the merge
    of the default resource with a resource of exactly two attributes,
    [service.name] and [service.version], holding the two strings; when the
    merge succeeds the result has these two attributes and, under every
    other key, what the default resource has. *)
Theorem newResource_merges_default_with_service_identity name ver w :
  let given := service_identity name ver in
  let by_default := env_Default (environment w) in
  resource.attrs given
    = <["service.version" := ver]> (<["service.name" := name]> ∅) /\
  size (resource.attrs given) = 2 /\
  newResource name ver w = Returned (resource.Merge by_default given) w /\
  forall res,
    resource.Merge by_default given = (res, nil_error) ->
    resource.attrs res !! "service.name" = Some name /\
    resource.attrs res !! "service.version" = Some ver /\
    forall k, k <> "service.name" -> k <> "service.version" ->
              resource.attrs res !! k = resource.attrs by_default !! k.
Proof.
  cbn zeta.
  assert (Hattrs : resource.attrs (service_identity name ver)
                   = <["service.version" := ver]> (<["service.name" := name]> ∅))
    by reflexivity.
  split; [exact Hattrs|]. split; [|split; [reflexivity|]].
  - rewrite Hattrs, map_size_insert_None, map_size_insert_None, map_size_empty;
      [reflexivity|apply lookup_empty|].
    by rewrite lookup_insert_ne, lookup_empty.
  - intros res Hmerge.
    assert (Hres : resource.attrs res
                   = resource.attrs (service_identity name ver)
                     ∪ resource.attrs (env_Default (environment w))).
    { unfold resource.Merge in Hmerge.
      repeat case_decide; inversion Hmerge; reflexivity. }
    rewrite Hres, Hattrs. split; [|split].
    + apply lookup_union_Some_l. by rewrite lookup_insert_ne, lookup_insert_eq.
    + apply lookup_union_Some_l. apply lookup_insert_eq.
    + intros k Hname Hversion. apply lookup_union_r.
      by rewrite !lookup_insert_ne, lookup_empty.
Qed.

Lemma newResource_merges_default_with_service_identity_witness :
  exists res,
    newResource "rolldice" "1.0" (Sample.start Sample.env_ok)
      = Returned (res, nil_error) (Sample.start Sample.env_ok) /\
    resource.attrs res !! "service.name" = Some "rolldice" /\
    resource.attrs res !! "service.version" = Some "1.0" /\
    resource.attrs res !! "telemetry.sdk.language" = Some "go".
Proof.
  set (w := Sample.start Sample.env_ok).
  pose (res := (resource.Merge (env_Default (environment w))
                  (service_identity "rolldice" "1.0")).1).
  assert (Hmerge : resource.Merge (env_Default (environment w))
                     (service_identity "rolldice" "1.0") = (res, nil_error))
    by (vm_compute; reflexivity).
  destruct (newResource_merges_default_with_service_identity "rolldice" "1.0" w)
    as (_ & _ & Hrun & Hres).
  destruct (Hres res Hmerge) as (Hname & Hversion & Hother).
  exists res. split; [by rewrite Hrun, Hmerge|].
  split; [exact Hname|]. split; [exact Hversion|].
  rewrite Hother by discriminate. reflexivity.
Defined.

(** C7. After a bootstrap that returned no error, the global tracer
    provider is one built with a single batching processor over the
    exporter that [newExporter] returned, whose batch timeout is one second
    where the library's default is five, and with the resource that
    [newResource] returned; its [Shutdown] is among the cleanups of the
    returned shutdown procedure. *)
Theorem trace_provider_is_batched_installed_and_registered ctx name ver w sd w1 :
  setupOTelSDK ctx name ver w = Returned (sd, nil_error) w1 ->
  exists res exporter tp l fns,
    newResource name ver w = Returned (res, nil_error) w /\
    newExporter ctx w = Returned (exporter, nil_error) w /\
    global_TracerProvider w1 = Some tp /\
    trace.batchers tp = [(exporter, 1000000000%Z)] /\
    trace.BatchTimeout [] = 5000000000%Z /\
    trace.resources tp = [res] /\
    sd = shutdown l /\
    cells w1 !! l = Some fns /\
    TracerProvider_Shutdown tp ∈ fns.
Proof.
  intros Hrun.
  destruct (setupOTelSDK_nil_inv _ _ _ _ _ _ Hrun)
    as (res & exporter & Hres & Hexp & Hsd & Hw1).
  eexists res, exporter, _, _, _.
  split; [by rewrite newResource_run, Hres|].
  split; [unfold newExporter, otlptracehttp.New, mbind, M_bind; by rewrite Hexp|].
  rewrite Hw1. cbn -[fresh].
  split; [reflexivity|]. split; [reflexivity|]. split; [reflexivity|].
  split; [reflexivity|]. split; [exact Hsd|].
  split; [apply lookup_insert_eq|]. set_solver.
Qed.

Lemma trace_provider_is_batched_installed_and_registered_witness :
  exists tp,
    global_TracerProvider Sample.booted = Some tp /\
    trace.batchers tp = [(otlptrace.mkExporter 0, time.Second)].
Proof.
  assert (Hrun : setupOTelSDK 0 "rolldice" "1.0" (Sample.start Sample.env_ok)
                 = Returned (shutdown 0, nil_error) Sample.booted)
    by (vm_compute; reflexivity).
  destruct (trace_provider_is_batched_installed_and_registered _ _ _ _ _ _ Hrun)
    as (res & exporter & tp & l & fns & _ & Hexp & Htp & Hb & _).
  exists tp. split; [exact Htp|]. rewrite Hb.
  vm_compute in Hexp. by inversion Hexp.
Defined.

(** C8. After a bootstrap that returned no error, the global meter
    provider is one built with the resource that [newResource] returned and
    with no reader; its [Shutdown] is among the cleanups of the returned
    shutdown procedure. *)
Theorem meter_provider_has_no_reader_installed_and_registered ctx name ver w sd w1 :
  setupOTelSDK ctx name ver w = Returned (sd, nil_error) w1 ->
  exists res mp l fns,
    newResource name ver w = Returned (res, nil_error) w /\
    global_MeterProvider w1 = Some mp /\
    metric.resources mp = [res] /\
    metric.readers mp = [] /\
    sd = shutdown l /\
    cells w1 !! l = Some fns /\
    MeterProvider_Shutdown mp ∈ fns.
Proof.
  intros Hrun.
  destruct (setupOTelSDK_nil_inv _ _ _ _ _ _ Hrun)
    as (res & exporter & Hres & Hexp & Hsd & Hw1).
  eexists res, _, _, _.
  split; [by rewrite newResource_run, Hres|].
  rewrite Hw1. cbn -[fresh].
  split; [reflexivity|]. split; [reflexivity|]. split; [reflexivity|].
  split; [exact Hsd|].
  split; [apply lookup_insert_eq|]. set_solver.
Qed.

Lemma meter_provider_has_no_reader_installed_and_registered_witness :
  exists mp,
    global_MeterProvider Sample.booted = Some mp /\ metric.readers mp = [].
Proof.
  assert (Hrun : setupOTelSDK 0 "rolldice" "1.0" (Sample.start Sample.env_ok)
                 = Returned (shutdown 0, nil_error) Sample.booted)
    by (vm_compute; reflexivity).
  destruct (meter_provider_has_no_reader_installed_and_registered _ _ _ _ _ _ Hrun)
    as (res & mp & l & fns & _ & Hmp & _ & Hreaders & _).
  exists mp. split; [exact Hmp|exact Hreaders].
Defined.

(** ** The dice-roll handler *)

(** C5. For every GET request and every number drawn, the handler answers
    200 with a plain-text body that is the decimal string of a number from
    1 to 6, a single digit matched by the pattern. *)
Theorem HandleRollDice_GET draw r :
  Method r = "GET" ->
  let resp := HandleRollDice draw r in
  StatusCode resp = 200 /\
  ContentType resp = "text/plain" /\
  exists roll : N,
    (1 <= roll <= 6)%N /\ Body resp = pretty roll /\ matches_1_to_6 (Body resp) = true.
Proof.
  intros HGET. unfold HandleRollDice. rewrite decide_True by exact HGET.
  cbn zeta. split; [reflexivity|]. split; [reflexivity|].
  assert (Hlt : (draw `mod` 6 < 6)%N) by (apply N.mod_lt; discriminate).
  set (m := (draw `mod` 6)%N) in *. clearbody m.
  exists (1 + m)%N.
  split; [lia|]. split; [reflexivity|].
  cbn [Body].
  assert (Hcases : (m = 0 \/ m = 1 \/ m = 2 \/ m = 3 \/ m = 4 \/ m = 5)%N) by lia.
  destruct Hcases as [-> | [-> | [-> | [-> | [-> | ->]]]]]; reflexivity.
Qed.

Lemma HandleRollDice_GET_witness :
  StatusCode (HandleRollDice 41 (mkRequest "GET" "/rolldice")) = 200 /\
  Body (HandleRollDice 41 (mkRequest "GET" "/rolldice")) = "6".
Proof.
  destruct (HandleRollDice_GET 41 (mkRequest "GET" "/rolldice") eq_refl)
    as (Hstatus & _ & roll & _ & _ & _).
  split; [exact Hstatus|reflexivity].
Defined.

(** * Further properties of [otel.go] *)

Lemma join_all_nil_iff (es : list error) : forall init,
  join_all init es = nil_error
  <-> init = nil_error /\ Forall (fun e => e = nil_error) es.
Proof.
  induction es as [|e es IH]; intros init; cbn [join_all foldl].
  - split; [intros ->; by split|by intros [-> _]].
  - fold (join_all (errors.Join [init; e]) es).
    rewrite IH, Join2_nil_iff, Forall_cons. tauto.
Qed.

Lemma fresh_cell_is_new (w : World) : cells w !! fresh (dom (cells w)) = None.
Proof. apply not_elem_of_dom, is_fresh. Qed.

(** X1. Whatever the captured slice holds, the closure of lines 28-35 calls
    its functions in order with the context it was given, once per
    registration, empties the slice and touches nothing else; the error it
    returns holds every error the functions reported, in order, and is nil
    only when none reported one. *)
Theorem shutdown_runs_whole_registry l ctx w fns :
  cells w !! l = Some fns ->
  exists e w',
    let reported := answers (environment w) fns ctx (invoked w) in
    shutdown l ctx w = Returned e w' /\
    invoked w' = invoked w ++ map (fun fn => (fn, ctx)) fns /\
    cells w' = <[l := []]> (cells w) /\
    errors.leaves_of e = concat (map errors.leaves_of reported) /\
    (e = nil_error <-> Forall (fun a => a = nil_error) reported) /\
    global_TextMapPropagator w' = global_TextMapPropagator w /\
    global_TracerProvider w' = global_TracerProvider w /\
    global_MeterProvider w' = global_MeterProvider w /\
    logged w' = logged w.
Proof.
  intros Hcell. eexists _, _. cbn zeta.
  split; [rewrite shutdown_run, Hcell; reflexivity|].
  cbn [default]. split; [reflexivity|]. split; [reflexivity|].
  split; [by rewrite leaves_of_join_all|].
  split; [|by repeat split].
  rewrite join_all_nil_iff. tauto.
Qed.

Lemma shutdown_runs_whole_registry_witness :
  exists e w',
    shutdown 0 5 Scenario.three_registered = Returned e w' /\
    errors.leaves_of e = [Sample.mp_failed; Sample.tp_failed; Sample.mp_failed] /\
    length (invoked w') = 3 /\
    cells w' !! 0 = Some [].
Proof.
  assert (Hcell : cells Scenario.three_registered !! 0
                  = Some [MeterProvider_Shutdown Scenario.mp0;
                          TracerProvider_Shutdown Scenario.tp0;
                          MeterProvider_Shutdown Scenario.mp0])
    by (vm_compute; reflexivity).
  destruct (shutdown_runs_whole_registry 0 5 _ _ Hcell)
    as (e & w' & Hrun & Hinv & Hcells & Hleaves & _).
  exists e, w'. split; [exact Hrun|]. split; [rewrite Hleaves; reflexivity|].
  split; [rewrite Hinv; reflexivity|].
  rewrite Hcells. apply lookup_insert_eq.
Defined.

(** X2. Each call of [setupOTelSDK] declares its own [shutdownFuncs]: after
    two successful bootstraps the two shutdown procedures own different
    slices, and invoking the first calls only the first bootstrap's cleanups
    and leaves the second procedure's registrations, and the providers the
    second bootstrap installed as globals, in place. *)
Theorem bootstraps_do_not_share_registry
    ctx1 name1 ver1 ctx2 name2 ver2 w sd1 w1 sd2 w2 ctx' :
  setupOTelSDK ctx1 name1 ver1 w = Returned (sd1, nil_error) w1 ->
  setupOTelSDK ctx2 name2 ver2 w1 = Returned (sd2, nil_error) w2 ->
  exists l1 l2 fns1 fns2 e w3,
    sd1 = shutdown l1 /\ sd2 = shutdown l2 /\ l1 <> l2 /\
    cells w1 !! l1 = Some fns1 /\
    cells w2 !! l1 = Some fns1 /\
    cells w2 !! l2 = Some fns2 /\ length fns2 = 2 /\
    sd1 ctx' w2 = Returned e w3 /\
    invoked w3 = invoked w2 ++ map (fun fn => (fn, ctx')) fns1 /\
    cells w3 !! l1 = Some [] /\
    cells w3 !! l2 = Some fns2 /\
    global_TracerProvider w3 = global_TracerProvider w2 /\
    global_MeterProvider w3 = global_MeterProvider w2.
Proof.
  intros Hrun1 Hrun2.
  destruct (setupOTelSDK_nil_inv _ _ _ _ _ _ Hrun1)
    as (res1 & exporter1 & _ & _ & Hsd1 & Hw1).
  destruct (setupOTelSDK_nil_inv _ _ _ _ _ _ Hrun2)
    as (res2 & exporter2 & _ & _ & Hsd2 & Hw2).
  cbn zeta in *.
  set (l1 := fresh (dom (cells w))) in *.
  set (l2 := fresh (dom (cells w1))) in *.
  assert (Hcell1 : is_Some (cells w1 !! l1)).
  { rewrite Hw1. cbn. rewrite lookup_insert_eq. by eexists. }
  destruct Hcell1 as [fns1 Hcell1].
  assert (Hne : l1 <> l2).
  { intros Heq. pose proof (fresh_cell_is_new w1) as Hnew.
    fold l2 in Hnew. rewrite <- Heq, Hcell1 in Hnew. discriminate. }
  assert (Hkept : cells w2 !! l1 = Some fns1).
  { rewrite Hw2. cbn. by rewrite lookup_insert_ne. }
  exists l1, l2, fns1. eexists _, _, _.
  split; [exact Hsd1|]. split; [exact Hsd2|]. split; [exact Hne|].
  split; [exact Hcell1|]. split; [exact Hkept|].
  split; [rewrite Hw2; cbn; apply lookup_insert_eq|]. split; [reflexivity|].
  split; [rewrite Hsd1, shutdown_run, Hkept; reflexivity|].
  cbn [default]. split; [reflexivity|].
  split; [cbn; apply lookup_insert_eq|].
  split; [|by split].
  cbn. rewrite lookup_insert_ne by exact Hne.
  rewrite Hw2. cbn. apply lookup_insert_eq.
Qed.

Lemma bootstraps_do_not_share_registry_witness :
  exists l1 l2 fns2 e w3,
    l1 <> l2 /\
    shutdown 0 9 Scenario.booted_twice = Returned e w3 /\
    cells w3 !! l1 = Some [] /\
    cells w3 !! l2 = Some fns2 /\ length fns2 = 2.
Proof.
  assert (Hrun1 : setupOTelSDK 0 "rolldice" "1.0" (Sample.start Sample.env_ok)
                  = Returned (shutdown 0, nil_error) Sample.booted)
    by (vm_compute; reflexivity).
  assert (Hrun2 : setupOTelSDK 1 "rolldice" "2.0" Sample.booted
                  = Returned (shutdown 1, nil_error) Scenario.booted_twice)
    by (vm_compute; reflexivity).
  destruct (bootstraps_do_not_share_registry _ _ _ _ _ _ _ _ _ _ _ 9 Hrun1 Hrun2)
    as (l1 & l2 & fns1 & fns2 & e & w3 & _ & _ & Hne & _ & _ & _ & Hlen
        & Hcall & _ & He1 & He2 & _).
  exists l1, l2, fns2, e, w3. by repeat split.
Defined.

(** X3. With the constructors of [otel.go], an error returned by
    [setupOTelSDK] can only come from the resource step: it is the join
    holding that step's error alone, it reads the same, and the bootstrap
    stopped before installing the propagator or writing to the log. *)
Theorem returned_error_comes_from_resource ctx name ver w sd err w' :
  setupOTelSDK ctx name ver w = Returned (sd, Some err) w' ->
  exists res inErr,
    newResource name ver w = Returned (res, Some inErr) w /\
    err = errors.joinError [inErr] /\
    errors.Error err = errors.Error inErr /\
    global_TextMapPropagator w' = global_TextMapPropagator w /\
    logged w' = logged w.
Proof.
  intros Hrun. unfold setupOTelSDK in Hrun.
  destruct (resource.Merge (env_Default (environment w)) (service_identity name ver))
    as [res [inErr|]] eqn:Hres.
  - rewrite (run_resource_fails _ _ _ _ _ _ _ _ Hres) in Hrun.
    inversion Hrun; subst. exists res, inErr.
    split; [by rewrite newResource_run, Hres|]. by repeat split.
  - destruct (env_New (environment w) ctx) as [inErr|exporter] eqn:Hexp.
    + rewrite (run_exporter_fails _ _ _ _ _ _ _ _ Hres Hexp) in Hrun. discriminate.
    + rewrite (run_succeeds _ _ _ _ _ _ _ _ _ _ _ _ Hres Hexp
                 (newTraceProvider_only_logs _ _) (newMeterProvider_only_logs _))
        in Hrun.
      discriminate.
Qed.

Lemma returned_error_comes_from_resource_witness :
  exists res inErr,
    newResource "rolldice" "1.0" (Sample.start Sample.env_schema_conflict)
      = Returned (res, Some inErr) (Sample.start Sample.env_schema_conflict) /\
    logged Scenario.conflicted = [].
Proof.
  assert (Hrun : setupOTelSDK 0 "rolldice" "1.0"
                   (Sample.start Sample.env_schema_conflict)
                 = Returned (shutdown 0,
                     Some (errors.joinError [resource.errMergeConflictSchemaURL]))
                     Scenario.conflicted)
    by (vm_compute; reflexivity).
  destruct (returned_error_comes_from_resource _ _ _ _ _ _ _ Hrun)
    as (res & inErr & Hres & _ & _ & _ & Hlog).
  exists res, inErr. split; [exact Hres|]. rewrite Hlog. reflexivity.
Defined.

(** X4. When [setupOTelSDK] panics, the value it panics with is the error
    of [otlptracehttp.New]; by then the propagator is installed, no provider
    is, nothing was registered for cleanup and no cleanup was run. *)
Theorem panic_leaves_propagator_only ctx name ver w v w' :
  setupOTelSDK ctx name ver w = Panicked v w' ->
  env_New (environment w) ctx = inl v /\
  global_TextMapPropagator w' = Some newPropagator /\
  global_TracerProvider w' = global_TracerProvider w /\
  global_MeterProvider w' = global_MeterProvider w /\
  cells w' = <[fresh (dom (cells w)) := []]> (cells w) /\
  invoked w' = invoked w /\
  logged w' = logged w ++ ["Error sending traces " +:+ errors.Error v].
Proof.
  intros Hrun. unfold setupOTelSDK in Hrun.
  destruct (resource.Merge (env_Default (environment w)) (service_identity name ver))
    as [res [inErr|]] eqn:Hres.
  - rewrite (run_resource_fails _ _ _ _ _ _ _ _ Hres) in Hrun. discriminate.
  - destruct (env_New (environment w) ctx) as [inErr|exporter] eqn:Hexp.
    + rewrite (run_exporter_fails _ _ _ _ _ _ _ _ Hres Hexp) in Hrun.
      inversion Hrun; subst. by repeat split.
    + rewrite (run_succeeds _ _ _ _ _ _ _ _ _ _ _ _ Hres Hexp
                 (newTraceProvider_only_logs _ _) (newMeterProvider_only_logs _))
        in Hrun.
      discriminate.
Qed.

Lemma panic_leaves_propagator_only_witness :
  exists w',
    setupOTelSDK 0 "rolldice" "1.0" (Sample.start Sample.env_no_exporter)
      = Panicked Sample.bad_endpoint w' /\
    global_TextMapPropagator w' = Some newPropagator /\
    global_TracerProvider w' = None /\
    invoked w' = [].
Proof.
  destruct (setupOTelSDK 0 "rolldice" "1.0" (Sample.start Sample.env_no_exporter))
    as [r w'|v w'] eqn:Hrun; [vm_compute in Hrun; discriminate|].
  destruct (panic_leaves_propagator_only _ _ _ _ _ _ Hrun)
    as (Hexp & Hprop & Htp & _ & _ & Hinv & _).
  exists w'. cbn in Hexp. inversion Hexp; subst v.
  split; [reflexivity|]. split; [exact Hprop|]. split; [exact Htp|exact Hinv].
Defined.

(** X5. A bootstrap that returns no error has installed the composite of
    trace context and baggage as the global propagator, has bound both
    providers to one and the same resource, has written exactly one line to
    the log, and has called no cleanup. *)
Theorem successful_bootstrap_effects ctx name ver w sd w1 :
  setupOTelSDK ctx name ver w = Returned (sd, nil_error) w1 ->
  exists res tp mp,
    global_TextMapPropagator w1
      = Some (propagation.compositeTextMapPropagator
                [propagation.TraceContext; propagation.Baggage]) /\
    global_TracerProvider w1 = Some tp /\
    global_MeterProvider w1 = Some mp /\
    trace.resources tp = [res] /\ metric.resources mp = [res] /\
    logged w1 = logged w ++ ["Sent to otel collector"] /\
    invoked w1 = invoked w.
Proof.
  intros Hrun.
  destruct (setupOTelSDK_nil_inv _ _ _ _ _ _ Hrun)
    as (res & exporter & _ & _ & _ & Hw1).
  rewrite Hw1. eexists res, _, _. by repeat split.
Qed.

Lemma successful_bootstrap_effects_witness :
  global_TextMapPropagator Sample.booted = Some newPropagator /\
  logged Sample.booted = ["Sent to otel collector"] /\
  invoked Sample.booted = [].
Proof.
  assert (Hrun : setupOTelSDK 0 "rolldice" "1.0" (Sample.start Sample.env_ok)
                 = Returned (shutdown 0, nil_error) Sample.booted)
    by (vm_compute; reflexivity).
  destruct (successful_bootstrap_effects _ _ _ _ _ _ Hrun)
    as (res & tp & mp & Hprop & _ & _ & _ & _ & Hlog & Hinv).
  split; [exact Hprop|]. split; [exact Hlog|exact Hinv].
Defined.

(** X6. Whichever step reported the error, the shutdown procedure that
    comes back together with a non-nil error has already been run by
    [handleErr]: invoking it calls nothing, changes nothing and returns
    nil.  Stated for any provider constructors that only log. *)
Theorem failed_bootstrap_returns_spent_shutdown
    mkTP mkMP ctx name ver w sd err w' :
  (forall res exporter, exists r lines, only_logs (mkTP res exporter) r lines) ->
  (forall res, exists r lines, only_logs (mkMP res) r lines) ->
  setupOTelSDK_body mkTP mkMP ctx name ver w = Returned (sd, Some err) w' ->
  forall ctx', sd ctx' w' = Returned nil_error w'.
Proof.
  intros HTP HMP Hrun ctx'.
  destruct (resource.Merge (env_Default (environment w)) (service_identity name ver))
    as [res [inErr|]] eqn:Hres.
  - rewrite (run_resource_fails mkTP mkMP ctx name ver w res inErr Hres) in Hrun.
    inversion Hrun; subst. apply shutdown_emptied. cbn. apply lookup_insert_eq.
  - destruct (env_New (environment w) ctx) as [inErr|exporter] eqn:Hexp.
    { rewrite (run_exporter_fails mkTP mkMP ctx name ver w res inErr Hres Hexp)
        in Hrun. discriminate. }
    destruct (HTP res exporter) as ([tp [inErr|]] & lines & Htp).
    { rewrite (run_trace_provider_fails mkTP mkMP ctx name ver w res exporter
                 tp inErr lines Hres Hexp Htp) in Hrun.
      inversion Hrun; subst. apply shutdown_emptied. cbn. apply lookup_insert_eq. }
    destruct (HMP res) as ([mp [inErr|]] & lines' & Hmp).
    { rewrite (run_meter_provider_fails mkTP mkMP ctx name ver w res exporter
                 tp mp inErr lines lines' Hres Hexp Htp Hmp) in Hrun.
      inversion Hrun; subst. apply shutdown_emptied. cbn. apply lookup_insert_eq. }
    rewrite (run_succeeds mkTP mkMP ctx name ver w res exporter tp mp lines lines'
               Hres Hexp Htp Hmp) in Hrun.
    discriminate.
Qed.

Lemma failed_bootstrap_returns_spent_shutdown_witness :
  exists sd err w',
    setupOTelSDK_body newTraceProvider Sample.failing_MeterProvider
      0 "rolldice" "1.0" (Sample.start Sample.env_ok)
    = Returned (sd, Some err) w' /\
    length (invoked w') = 1 /\
    sd 3 w' = Returned nil_error w'.
Proof.
  destruct (setupOTelSDK_body newTraceProvider Sample.failing_MeterProvider
              0 "rolldice" "1.0" (Sample.start Sample.env_ok))
    as [[sd [err|]] w'|v w'] eqn:Hrun;
    [|vm_compute in Hrun; discriminate|vm_compute in Hrun; discriminate].
  exists sd, err, w'. split; [reflexivity|]. split.
  - vm_compute in Hrun. by inversion Hrun.
  - apply (failed_bootstrap_returns_spent_shutdown
             newTraceProvider Sample.failing_MeterProvider
             0 "rolldice" "1.0" (Sample.start Sample.env_ok) sd err w');
      [| |exact Hrun].
    + intros res exporter. eexists _, _. apply newTraceProvider_only_logs.
    + intros res. exists (metric.NewMeterProvider [], Some Sample.no_reader), [].
      intros w0. unfold Sample.failing_MeterProvider, set_logged, mret, M_ret.
      by rewrite app_nil_r, World_eta.
Defined.

(** X7. The text of the error the shutdown procedure returns after a
    successful bootstrap: the tracer provider's text, a newline, the meter
    provider's text when both failed, and the text of the one that failed
    otherwise; the nested joins of line 31 add nothing to it. *)
Theorem shutdown_error_text ctx name ver w sd w1 ctx' e w2 :
  setupOTelSDK ctx name ver w = Returned (sd, nil_error) w1 ->
  sd ctx' w1 = Returned (Some e) w2 ->
  exists tp mp,
    let e1 := env_Shutdown (environment w1) (TracerProvider_Shutdown tp) ctx'
                (invoked w1) in
    let e2 := env_Shutdown (environment w1) (MeterProvider_Shutdown mp) ctx'
                (invoked w1 ++ [(TracerProvider_Shutdown tp, ctx')]) in
    global_TracerProvider w1 = Some tp /\
    global_MeterProvider w1 = Some mp /\
    match e1, e2 with
    | Some a, Some b =>
        errors.Error e = errors.Error a +:+ String errors.newline (errors.Error b)
    | Some a, None => errors.Error e = errors.Error a
    | None, Some b => errors.Error e = errors.Error b
    | None, None => False
    end.
Proof.
  intros Hrun Hcall.
  destruct (setupOTelSDK_nil_inv _ _ _ _ _ _ Hrun)
    as (res & exporter & _ & _ & Hsd & Hw1).
  cbn zeta in *.
  assert (Hcell : cells w1 !! fresh (dom (cells w)) = Some
            [TracerProvider_Shutdown (trace.NewTracerProvider
               [trace.WithBatcher exporter [trace.WithBatchTimeout time.Second];
                trace.WithResource res]);
             MeterProvider_Shutdown (metric.NewMeterProvider [metric.WithResource res])]).
  { rewrite Hw1. cbn. apply lookup_insert_eq. }
  rewrite Hsd, shutdown_run, Hcell in Hcall.
  cbn -[errors.Join] in Hcall.
  exists (trace.NewTracerProvider
            [trace.WithBatcher exporter [trace.WithBatchTimeout time.Second];
             trace.WithResource res]),
         (metric.NewMeterProvider [metric.WithResource res]).
  split; [by rewrite Hw1|]. split; [by rewrite Hw1|].
  set (e1 := env_Shutdown (environment w1) (TracerProvider_Shutdown _) ctx' _) in *.
  set (e2 := env_Shutdown (environment w1) (MeterProvider_Shutdown _) ctx' _) in *.
  clearbody e1 e2.
  destruct e1 as [a|], e2 as [b|]; cbn in Hcall; inversion Hcall; reflexivity.
Qed.

Lemma shutdown_error_text_witness :
  exists e w2,
    shutdown 0 7 Sample.booted = Returned (Some e) w2 /\
    errors.Error e
    = "tracer provider: flush failed" +:+
      String errors.newline "meter provider: shutdown failed".
Proof.
  assert (Hrun : setupOTelSDK 0 "rolldice" "1.0" (Sample.start Sample.env_ok)
                 = Returned (shutdown 0, nil_error) Sample.booted)
    by (vm_compute; reflexivity).
  destruct (shutdown 0 7 Sample.booted) as [[e|] w2|v w2] eqn:Hcall;
    [|vm_compute in Hcall; discriminate|vm_compute in Hcall; discriminate].
  destruct (shutdown_error_text _ _ _ _ _ _ 7 e w2 Hrun Hcall)
    as (tp & mp & _ & _ & Htext).
  exists e, w2. split; [reflexivity|]. exact Htext.
Defined.

(** X8. [newExporter] never returns a non-nil error: when it returns, the
    error result is nil, the exporter is the one [otlptracehttp.New] built
    and nothing was logged, so the blank identifier of line 53 discards
    nothing; when the exporter cannot be built it does not return. *)
Theorem newExporter_error_is_always_nil ctx w :
  (forall exporter err w',
      newExporter ctx w = Returned (exporter, err) w' ->
      err = nil_error /\ w' = w /\ env_New (environment w) ctx = inr exporter) /\
  (forall inErr,
      env_New (environment w) ctx = inl inErr ->
      forall r w', newExporter ctx w <> Returned r w').
Proof.
  unfold newExporter, otlptracehttp.New, log.Printf, log.Print, panic,
    mbind, M_bind, mret, M_ret.
  destruct (env_New (environment w) ctx) as [inErr|exporter]; split.
  - intros exporter err w' H. discriminate.
  - intros inErr' _ r w' H. discriminate.
  - intros exporter' err w' H. inversion H; subst. by repeat split.
  - intros inErr H. discriminate.
Qed.

Lemma newExporter_error_is_always_nil_witness :
  (exists exporter,
      newExporter 0 (Sample.start Sample.env_ok)
      = Returned (exporter, nil_error) (Sample.start Sample.env_ok)) /\
  (forall r w', newExporter 0 (Sample.start Sample.env_no_exporter) <> Returned r w').
Proof.
  split.
  - destruct (newExporter 0 (Sample.start Sample.env_ok))
      as [[exporter err] w'|v w'] eqn:Hrun; [|vm_compute in Hrun; discriminate].
    destruct (proj1 (newExporter_error_is_always_nil 0 (Sample.start Sample.env_ok))
                exporter err w' Hrun) as (-> & -> & _).
    by exists exporter.
  - apply (proj2 (newExporter_error_is_always_nil 0
                    (Sample.start Sample.env_no_exporter)) Sample.bad_endpoint).
    reflexivity.
Defined.

(** X9. [newResource] changes nothing in the world.  It fails exactly when
    the default resource carries a schema URL that is neither empty nor the
    one of semconv v1.21.0, and then with the schema-conflict error; when it
    succeeds the resource it returns is under the v1.21.0 schema. *)
Theorem newResource_fails_on_schema_conflict name ver w res err w' :
  newResource name ver w = Returned (res, err) w' ->
  let url := resource.schemaURL (env_Default (environment w)) in
  w' = w /\
  (err = nil_error <-> url = "" \/ url = semconv.SchemaURL) /\
  (err = nil_error -> resource.schemaURL res = semconv.SchemaURL) /\
  (err <> nil_error -> err = Some resource.errMergeConflictSchemaURL).
Proof.
  rewrite newResource_run. intros Hrun. cbn zeta.
  injection Hrun as Hmerge <-. split; [reflexivity|].
  unfold resource.Merge in Hmerge.
  change (resource.schemaURL (service_identity name ver)) with semconv.SchemaURL
    in Hmerge.
  destruct (decide (resource.schemaURL (env_Default (environment w)) = ""))
    as [Hempty|Hset].
  { inversion Hmerge; subst. split; [split; [intros _; by left|reflexivity]|].
    split; [reflexivity|]. intros Hne. by destruct Hne. }
  destruct (decide (semconv.SchemaURL = "")) as [Habsurd|_]; [discriminate|].
  destruct (decide (resource.schemaURL (env_Default (environment w))
                    = semconv.SchemaURL)) as [Hsame|Hother].
  { inversion Hmerge; subst. split; [split; [intros _; by right|reflexivity]|].
    split; [intros _; exact Hsame|]. intros Hne. by destruct Hne. }
  inversion Hmerge; subst. split; [split; [discriminate|]|].
  - intros [Hurl|Hurl]; [by destruct Hset|by destruct Hother].
  - split; [discriminate|reflexivity].
Qed.

Lemma newResource_fails_on_schema_conflict_witness :
  (exists res,
     newResource "rolldice" "1.0" (Sample.start Sample.env_ok)
       = Returned (res, nil_error) (Sample.start Sample.env_ok) /\
     resource.schemaURL res = "https://opentelemetry.io/schemas/1.21.0") /\
  (exists res,
     newResource "rolldice" "1.0" (Sample.start Sample.env_schema_conflict)
       = Returned (res, Some resource.errMergeConflictSchemaURL)
           (Sample.start Sample.env_schema_conflict)).
Proof.
  split.
  - destruct (newResource "rolldice" "1.0" (Sample.start Sample.env_ok))
      as [[res err] w'|v w'] eqn:Hrun; [|vm_compute in Hrun; discriminate].
    destruct (newResource_fails_on_schema_conflict _ _ _ _ _ _ Hrun)
      as (-> & Hiff & Hurl & _).
    assert (Herr : err = nil_error) by (apply Hiff; by right).
    subst err. exists res. split; [reflexivity|]. by apply Hurl.
  - destruct (newResource "rolldice" "1.0" (Sample.start Sample.env_schema_conflict))
      as [[res err] w'|v w'] eqn:Hrun; [|vm_compute in Hrun; discriminate].
    destruct (newResource_fails_on_schema_conflict _ _ _ _ _ _ Hrun)
      as (-> & Hiff & _ & Hconflict).
    exists res. rewrite Hconflict; [reflexivity|].
    intros Herr. apply Hiff in Herr. cbn in Herr.
    destruct Herr as [Herr|Herr]; discriminate.
Defined.

(** X10. With the constructors of [otel.go], [setupOTelSDK] itself never
    calls a cleanup, whether it returns or panics; it keeps every line
    already in the log and leaves the slices of earlier bootstraps as they
    are. *)
Theorem bootstrap_calls_no_cleanup ctx name ver w :
  match setupOTelSDK ctx name ver w with
  | Returned _ w' | Panicked _ w' =>
      invoked w' = invoked w /\
      environment w' = environment w /\
      logged w `prefix_of` logged w' /\
      forall l fns, cells w !! l = Some fns -> cells w' !! l = Some fns
  end.
Proof.
  assert (Hkept : forall fns0 l fns,
             cells w !! l = Some fns ->
             <[fresh (dom (cells w)) := fns0]> (cells w) !! l = Some fns).
  { intros fns0 l fns Hl. rewrite lookup_insert_ne; [exact Hl|].
    intros <-. rewrite fresh_cell_is_new in Hl. discriminate. }
  unfold setupOTelSDK.
  destruct (resource.Merge (env_Default (environment w)) (service_identity name ver))
    as [res [inErr|]] eqn:Hres.
  - rewrite (run_resource_fails _ _ _ _ _ _ _ _ Hres). cbn.
    split; [reflexivity|]. split; [reflexivity|]. split; [reflexivity|].
    apply Hkept.
  - destruct (env_New (environment w) ctx) as [inErr|exporter] eqn:Hexp.
    + rewrite (run_exporter_fails _ _ _ _ _ _ _ _ Hres Hexp). cbn.
      split; [reflexivity|]. split; [reflexivity|].
      split; [apply prefix_app_r; reflexivity|]. apply Hkept.
    + rewrite (run_succeeds _ _ _ _ _ _ _ _ _ _ _ _ Hres Hexp
                 (newTraceProvider_only_logs _ _) (newMeterProvider_only_logs _)).
      cbn. split; [reflexivity|]. split; [reflexivity|].
      split; [apply prefix_app_r; reflexivity|]. apply Hkept.
Qed.
